(** * robot.py: the [my_task] entry point

    A shallow embedding of [src/robot.py] and the properties of its
    console output.

    {v
    import os
    from robocorp.tasks import task

    @task
    def my_task(name, age):
        print(f"Hello {name} you are {age} years old")
        print("--------------------------------")
        print(f"Key from Env: {os.getenv('API_KEY')}")
        print("--------------------------------")
    v}

    The function is straight-line effectful code: four calls of [print]
    and one call of [os.getenv].  It is embedded in a small monad that
    threads the process state (environment, console, other globals) and
    carries an exception channel: formatting a replacement field and
    printing a text can both raise, and an exception ends the run where
    it happens. *)

From Stdlib Require Import ZArith Ascii DecimalString DecimalPos DecimalZ.
From stdpp Require Import base option list strings gmap.

Local Open Scope string_scope.

(** ** Python values and their text *)

Module Py.

Inductive exn : Type :=
  | ValueError
  | UnicodeEncodeError
  | Exception (class : string).

(** A text is a [string]: a sequence of characters, of which the
    library type offers 256; the first 128 are the ASCII range, the
    others stand for the characters outside it.

    The values a caller can pass for [name] and [age], and the values
    [os.getenv] returns.  A float is carried as the text [repr] gives
    for it.  An object of any other class is carried as what its
    [__format__] does when called with the empty format specification:
    it returns a text or raises; it is taken to leave the process state
    alone. *)
Inductive value : Type :=
  | VNone
  | VBool (b : bool)
  | VInt (n : Z)
  | VFloat (repr : string)
  | VStr (s : string)
  | VObject (shown : exn + string).

(** [sys.get_int_max_str_digits()], as the interpreter starts. *)
Definition int_max_str_digits : nat := 4300.

(** Whether [n] has more decimal digits than the limit allows, the sign
    not counted: whether [|n| >= 10 ^ int_max_str_digits]. *)
Definition exceeds_max_str_digits (n : Z) : bool :=
  (Z.abs n >=? 10 ^ Z.of_nat int_max_str_digits)%Z.

(** [str(v)].  Text is rendered as it is; an integer in decimal, with a
    leading minus sign when negative, and with [ValueError] when it has
    more digits than [int_max_str_digits]. *)
Definition str (v : value) : exn + string :=
  match v with
  | VNone => inr "None"
  | VBool true => inr "True"
  | VBool false => inr "False"
  | VInt n =>
      if exceeds_max_str_digits n
      then inl ValueError
      else inr (NilZero.string_of_int (Z.to_int n))
  | VFloat repr => inr repr
  | VStr s => inr s
  | VObject shown => shown
  end.

End Py.

Export Py.

(** ** The process state *)

(** [environ] is [os.environ]; [stdout] holds the lines written to the
    console so far, one per completed [print] call, oldest first;
    [globals] stands for the module-level bindings of the interpreter.
    [env_reads] is an instrumentation field: it logs the keys looked up
    in the environment, so that reads can be counted.
    [stdout_encodes] is the codec and error handler of [sys.stdout],
    fixed outside the program: it tells, for a character outside the
    ASCII range, whether the console stream can encode it (under UTF-8
    with the strict handler a lone surrogate cannot be). *)
Record world : Type := World {
  environ : gmap string string;
  stdout : list string;
  globals : gmap string value;
  env_reads : list string;
  stdout_encodes : Ascii.ascii → bool
}.

(** ** Computations *)

Inductive outcome (A : Type) : Type :=
  | Returned (a : A)
  | Raised (e : exn).
Arguments Returned {A} a.
Arguments Raised {A} e.

Definition IO (A : Type) : Type := world → outcome A * world.

Definition ret {A} (a : A) : IO A := λ w, (Returned a, w).

Definition raise {A} (e : exn) : IO A := λ w, (Raised e, w).

(** Sequencing: an exception raised by the first computation skips the
    rest and keeps the state reached so far. *)
Definition bind {A B} (m : IO A) (k : A → IO B) : IO B :=
  λ w, match m w with
       | (Returned a, w') => k a w'
       | (Raised e, w') => (Raised e, w')
       end.

#[export] Instance IO_ret : MRet IO := @ret.
#[export] Instance IO_bind : MBind IO := λ A B k m, bind m k.

(** ** Primitives *)

(** A replacement field [{e}] of an f-string, without conversion and
    without format specification, is [format(e, "")], which is [str(e)]
    for the built-in values and the object's own [__format__]
    otherwise; its exception is the exception of the f-string. *)
Definition format (v : value) : IO string :=
  match str v with
  | inr text => mret text
  | inl e => raise e
  end.

(** The characters of the ASCII range: every console codec encodes
    them. *)
Definition is_ascii (c : Ascii.ascii) : bool :=
  match c with
  | Ascii _ _ _ _ _ _ _ b7 => negb b7
  end.

(** Whether a stream with the codec [enc] can encode the text [s]. *)
Fixpoint encodable (enc : Ascii.ascii → bool) (s : string) : bool :=
  match s with
  | "" => true
  | String c s' => (is_ascii c || enc c) && encodable enc s'
  end.

(** [print(s)] with the default [sep], [end] and [file]: the stream
    encodes [s] before it writes any of it, so the call either adds one
    line to the console or raises [UnicodeEncodeError] and adds
    nothing. *)
Definition print (s : string) : IO () :=
  λ w, if encodable (stdout_encodes w) s
       then (Returned (),
             World (environ w) (stdout w ++ [s]) (globals w) (env_reads w)
                   (stdout_encodes w))
       else (Raised UnicodeEncodeError, w).

(** An optional text as a Python value: the text, or [None]. *)
Definition of_optional (o : option string) : value :=
  match o with
  | Some v => VStr v
  | None => VNone
  end.

(** [os.getenv(key)] is [os.environ.get(key, None)]: the value bound to
    [key], or [None]; a missing key is not an error. *)
Definition os_getenv (key : string) : IO value :=
  λ w, (Returned (of_optional (environ w !! key)),
        World (environ w) (stdout w) (globals w) (env_reads w ++ [key])
              (stdout_encodes w)).

(** ** The task *)

(** The decorator [@task] registers the function with the host and leaves
    the callable as it is; the body is embedded statement by statement.
    The replacement fields of an f-string are evaluated and formatted
    from left to right before the text is handed to [print].  A function
    body that ends without [return] returns [None]. *)
Definition my_task (name age : value) : IO value :=
  n ← format name ;
  a ← format age ;
  print ("Hello " +:+ n +:+ " you are " +:+ a +:+ " years old") ;;
  print "--------------------------------" ;;
  key ← os_getenv "API_KEY" ;
  k ← format key ;
  print ("Key from Env: " +:+ k) ;;
  print "--------------------------------" ;;
  mret VNone.

(** ** Observations *)

(** The lines a computation adds to the console when started in [w]. *)
Definition written {A} (m : IO A) (w : world) : list string :=
  drop (length (stdout w)) (stdout (m w).2).

(** [n] dash characters. *)
Fixpoint dashes (n : nat) : string :=
  match n with
  | O => ""
  | S n' => String "-"%char (dashes n')
  end.

(** The console as a stream of characters: [print] ends every line with
    a line feed. *)
Definition LF : Ascii.ascii := "010"%char.

Definition console_text (ls : list string) : string :=
  foldr (λ l acc, l +:+ String LF acc) "" ls.

(** The rows a reader of the stream sees: the runs of characters between
    line feeds.  [cur] is the row read so far. *)
Fixpoint rows_from (cur s : string) : list string :=
  match s with
  | "" => match cur with "" => [] | _ => [cur] end
  | String c s' =>
      if decide (c = LF) then cur :: rows_from "" s'
      else rows_from (cur +:+ String c "") s'
  end.

Definition rows (s : string) : list string := rows_from "" s.

(** The lines of standard output that a run started in [w] adds, as a
    reader of the stream sees them. *)
Definition output_lines {A} (m : IO A) (w : world) : list string :=
  rows (console_text (written m w)).

Fixpoint no_LF (s : string) : Prop :=
  match s with
  | "" => True
  | String c s' => c ≠ LF ∧ no_LF s'
  end.

(** The number of line feeds in a text. *)
Fixpoint count_LF (s : string) : nat :=
  match s with
  | "" => 0
  | String c s' => (if decide (c = LF) then 1 else 0) + count_LF s'
  end.

(** [None], a boolean or an integer within the digit limit. *)
Definition is_scalar (v : value) : bool :=
  match v with
  | VNone | VBool _ => true
  | VInt n => negb (exceeds_max_str_digits n)
  | _ => false
  end.

(** ** Sample states *)

(** Two console codecs: one that encodes every character, one that
    encodes the ASCII range only. *)
Definition encodes_all : Ascii.ascii → bool := λ _, true.
Definition encodes_ascii : Ascii.ascii → bool := λ _, false.

(** A fresh process with [API_KEY] set, one without it, and one that has
    already printed and read, with a further variable in its
    environment. *)
Definition w_secret : world :=
  World {[ "API_KEY" := "secret123" ]} [] ∅ [] encodes_all.

Definition w_unset : world :=
  World {[ "HOME" := "/root" ]} [] ∅ [] encodes_all.

Definition w_other : world :=
  World (<[ "HOME" := "/root" ]> {[ "API_KEY" := "secret123" ]})
        ["earlier output"] ∅ ["HOME"] encodes_all.

(** A process whose [API_KEY] is the four-letter text ["None"]. *)
Definition w_none_text : world :=
  World {[ "API_KEY" := "None" ]} [] ∅ [] encodes_all.

(** Two processes whose [API_KEY] values hold a line feed and differ
    after it. *)
Definition w_key_ab : world :=
  World {[ "API_KEY" := String "a" (String LF "b") ]} [] ∅ [] encodes_all.

Definition w_key_ac : world :=
  World {[ "API_KEY" := String "a" (String LF "c") ]} [] ∅ [] encodes_all.

(** The process of [w_secret] behind a console that encodes the ASCII
    range only, and a name with one character outside that range. *)
Definition w_secret_ascii : world :=
  World {[ "API_KEY" := "secret123" ]} [] ∅ [] encodes_ascii.

Definition name_not_ascii : value := VStr (String "233"%char "").

(** A name that holds a line feed, and the least integer of 4301
    digits. *)
Definition name_two_rows : value := VStr (String "a" (String LF "b")).

Definition int_4301_digits : Z := 10 ^ 4300.

(** * Properties *)

(** ** Texts *)

(** [String.append] is kept folded by the library; its two equations. *)
Lemma append_nil_l (t : string) : "" +:+ t = t.
Proof. reflexivity. Qed.

Lemma append_cons (c : Ascii.ascii) (s t : string) :
  String c s +:+ t = String c (s +:+ t).
Proof. reflexivity. Qed.

Lemma append_empty_r (s : string) : s +:+ "" = s.
Proof.
  induction s as [|c s IH]; [done |].
  by rewrite append_cons, IH.
Qed.

Lemma append_snoc (s t : string) (c : Ascii.ascii) :
  (s +:+ String c "") +:+ t = s +:+ String c t.
Proof.
  induction s as [|d s IH]; [done |].
  by rewrite !append_cons, IH.
Qed.

Lemma append_assoc (s t u : string) : (s +:+ t) +:+ u = s +:+ t +:+ u.
Proof.
  induction s as [|c s IH]; [done |].
  by rewrite !append_cons, IH.
Qed.

Lemma length_append (s t : string) :
  String.length (s +:+ t) = (String.length s + String.length t)%nat.
Proof.
  induction s as [|c s IH]; [done |].
  rewrite append_cons. cbn [String.length]. by rewrite IH.
Qed.

(** A common suffix can be cancelled. *)
Lemma append_inj_r (t s1 s2 : string) : s1 +:+ t = s2 +:+ t → s1 = s2.
Proof.
  revert s2. induction s1 as [|c s1 IH]; intros [|d s2] H; [done | | |].
  - apply (f_equal String.length) in H.
    rewrite append_nil_l, length_append in H. cbn [String.length] in H. lia.
  - apply (f_equal String.length) in H.
    rewrite append_nil_l, length_append in H. cbn [String.length] in H. lia.
  - rewrite !append_cons in H. injection H as -> H. f_equal. by apply IH.
Qed.

Lemma dashes_length n : String.length (dashes n) = n.
Proof. induction n as [|n IH]; simpl; [done | by rewrite IH]. Qed.

Lemma no_LF_append s t : no_LF s → no_LF t → no_LF (s +:+ t).
Proof.
  induction s as [|c s IH]; [done |].
  rewrite append_cons. simpl.
  intros [Hc Hs] Ht. split; [done | by apply IH].
Qed.

Lemma no_LF_dashes n : no_LF (dashes n).
Proof. induction n as [|n IH]; simpl; [done | split; [discriminate | done]]. Qed.

Lemma count_LF_append s t : count_LF (s +:+ t) = (count_LF s + count_LF t)%nat.
Proof.
  induction s as [|c s IH]; [done |].
  rewrite append_cons. cbn [count_LF]. rewrite IH. lia.
Qed.

Lemma count_LF_dashes n : count_LF (dashes n) = 0%nat.
Proof. induction n as [|n IH]; [done |]. cbn [dashes count_LF]. by rewrite IH. Qed.

Lemma encodable_append enc s t :
  encodable enc (s +:+ t) = encodable enc s && encodable enc t.
Proof.
  induction s as [|c s IH]; [done |].
  rewrite append_cons. cbn [encodable]. rewrite IH. by rewrite andb_assoc.
Qed.

(** The two templates add nothing that a console cannot encode. *)
Lemma encodable_greeting enc n a :
  encodable enc ("Hello " +:+ n +:+ " you are " +:+ a +:+ " years old") =
    encodable enc n && encodable enc a.
Proof.
  rewrite !encodable_append.
  change (encodable enc "Hello ") with true.
  change (encodable enc " you are ") with true.
  change (encodable enc " years old") with true.
  by rewrite andb_true_r.
Qed.

Lemma encodable_env_line enc k :
  encodable enc ("Key from Env: " +:+ k) = encodable enc k.
Proof. by rewrite encodable_append. Qed.

Lemma encodable_dashes enc n : encodable enc (dashes n) = true.
Proof. induction n as [|n IH]; [done |]. cbn [dashes encodable]. by rewrite IH. Qed.

(** ** Formatting *)

Lemma str_text s : str (VStr s) = inr s.
Proof. reflexivity. Qed.

Lemma str_of_optional o : str (of_optional o) = inr (default "None" o).
Proof. by destruct o. Qed.

Lemma exceeds_int_4301_digits : exceeds_max_str_digits int_4301_digits = true.
Proof.
  unfold exceeds_max_str_digits, int_4301_digits.
  change (Z.of_nat int_max_str_digits) with 4300%Z.
  rewrite Z.abs_eq by (apply Z.pow_nonneg; lia).
  rewrite Z.geb_leb. apply Z.leb_refl.
Qed.

Lemma str_int_4301_digits : str (VInt int_4301_digits) = inl ValueError.
Proof. unfold str. by rewrite exceeds_int_4301_digits. Qed.

Lemma str_int n :
  exceeds_max_str_digits n = false →
  str (VInt n) = inr (NilZero.string_of_int (Z.to_int n)).
Proof. intros H. unfold str. by rewrite H. Qed.

(** ** Sequencing *)

Lemma bind_ret {A B} (a : A) (k : A → IO B) w : (mret a ≫= k) w = k a w.
Proof. reflexivity. Qed.

Lemma bind_raise {A B} (e : exn) (k : A → IO B) w :
  (raise e ≫= k) w = (Raised e, w).
Proof. reflexivity. Qed.

Lemma bind_format {B} (v : value) (k : string → IO B) w :
  (format v ≫= k) w =
    match str v with
    | inr text => k text w
    | inl e => (Raised e, w)
    end.
Proof. unfold format. by destruct (str v). Qed.

Lemma bind_print {B} (s : string) (k : () → IO B) w :
  (print s ≫= k) w =
    if encodable (stdout_encodes w) s
    then k () (World (environ w) (stdout w ++ [s]) (globals w) (env_reads w)
                     (stdout_encodes w))
    else (Raised UnicodeEncodeError, w).
Proof.
  unfold mbind, IO_bind, bind, print.
  by destruct (encodable (stdout_encodes w) s).
Qed.

Lemma bind_os_getenv {B} (key : string) (k : value → IO B) w :
  (os_getenv key ≫= k) w =
    k (of_optional (environ w !! key))
      (World (environ w) (stdout w) (globals w) (env_reads w ++ [key])
             (stdout_encodes w)).
Proof. reflexivity. Qed.

(** ** Running the task *)

(** One equation for the whole run: result and final state, by the
    point where the run ends. *)
Lemma my_task_run name age w :
  my_task name age w =
    match str name, str age with
    | inl e, _ => (Raised e, w)
    | inr _, inl e => (Raised e, w)
    | inr n, inr a =>
        let g := "Hello " +:+ n +:+ " you are " +:+ a +:+ " years old" in
        let k := "Key from Env: " +:+ default "None" (environ w !! "API_KEY") in
        if encodable (stdout_encodes w) g then
          if encodable (stdout_encodes w) k then
            (Returned VNone,
             World (environ w) (stdout w ++ [g; dashes 32; k; dashes 32])
                   (globals w) (env_reads w ++ ["API_KEY"]) (stdout_encodes w))
          else
            (Raised UnicodeEncodeError,
             World (environ w) (stdout w ++ [g; dashes 32])
                   (globals w) (env_reads w ++ ["API_KEY"]) (stdout_encodes w))
        else (Raised UnicodeEncodeError, w)
    end.
Proof.
  unfold my_task. rewrite bind_format.
  destruct (str name) as [e|n]; [done |].
  rewrite bind_format.
  destruct (str age) as [e|a]; [done |].
  cbv zeta. rewrite bind_print.
  destruct (encodable (stdout_encodes w) _); [| done].
  rewrite bind_print. cbn [environ stdout globals env_reads stdout_encodes].
  change (encodable (stdout_encodes w) "--------------------------------")
    with true. cbv iota.
  rewrite bind_os_getenv, bind_format, str_of_optional.
  rewrite bind_print. cbn [environ stdout globals env_reads stdout_encodes].
  destruct (encodable (stdout_encodes w) _).
  - rewrite bind_print. cbn [environ stdout globals env_reads stdout_encodes].
    change (encodable (stdout_encodes w) "--------------------------------")
      with true. cbv iota.
    unfold mret, IO_ret, ret. by rewrite <- !(assoc_L (++)).
  - by rewrite <- !(assoc_L (++)).
Qed.

(** The run that goes through. *)
Lemma my_task_returns name age w n a :
  str name = inr n → str age = inr a →
  encodable (stdout_encodes w) n = true →
  encodable (stdout_encodes w) a = true →
  encodable (stdout_encodes w) (default "None" (environ w !! "API_KEY")) = true →
  my_task name age w =
    (Returned VNone,
     World (environ w)
           (stdout w ++
              [ "Hello " +:+ n +:+ " you are " +:+ a +:+ " years old";
                dashes 32;
                "Key from Env: " +:+ default "None" (environ w !! "API_KEY");
                dashes 32 ])
           (globals w) (env_reads w ++ ["API_KEY"]) (stdout_encodes w)).
Proof.
  intros Hn Ha En Ea Ek. rewrite my_task_run, Hn, Ha. cbv zeta.
  by rewrite encodable_greeting, encodable_env_line, En, Ea, Ek.
Qed.

(** A run returns only if both formattings and both encodings
    succeed. *)
Lemma my_task_returned_inv name age w v :
  (my_task name age w).1 = Returned v →
  ∃ n a, str name = inr n ∧ str age = inr a
    ∧ encodable (stdout_encodes w) n = true
    ∧ encodable (stdout_encodes w) a = true
    ∧ encodable (stdout_encodes w)
        (default "None" (environ w !! "API_KEY")) = true.
Proof.
  rewrite my_task_run. intros H.
  destruct (str name) as [e|n]; [done |].
  destruct (str age) as [e|a]; [done |].
  cbv zeta in H. rewrite encodable_greeting, encodable_env_line in H.
  exists n, a.
  destruct (encodable (stdout_encodes w) n); [| done].
  destruct (encodable (stdout_encodes w) a); [| done].
  destruct (encodable (stdout_encodes w) (default _ _)); [| done].
  by repeat split.
Qed.

(** What a run writes, by the point where it ends: nothing, the
    greeting and the first separator, or all four lines. *)
Lemma my_task_written name age w :
  written (my_task name age) w =
    match str name, str age with
    | inr n, inr a =>
        let g := "Hello " +:+ n +:+ " you are " +:+ a +:+ " years old" in
        let k := "Key from Env: " +:+ default "None" (environ w !! "API_KEY") in
        if encodable (stdout_encodes w) g then
          if encodable (stdout_encodes w) k
          then [g; dashes 32; k; dashes 32]
          else [g; dashes 32]
        else []
    | _, _ => []
    end.
Proof.
  unfold written. rewrite my_task_run.
  destruct (str name) as [e|n]; [by rewrite drop_all |].
  destruct (str age) as [e|a]; [by rewrite drop_all |].
  cbv zeta.
  destruct (encodable (stdout_encodes w) _); [| by rewrite drop_all].
  destruct (encodable (stdout_encodes w) _); cbn [snd stdout];
    by rewrite drop_app_length.
Qed.

Lemma my_task_written_returns name age w n a :
  str name = inr n → str age = inr a →
  encodable (stdout_encodes w) n = true →
  encodable (stdout_encodes w) a = true →
  encodable (stdout_encodes w) (default "None" (environ w !! "API_KEY")) = true →
  written (my_task name age) w =
    [ "Hello " +:+ n +:+ " you are " +:+ a +:+ " years old";
      dashes 32;
      "Key from Env: " +:+ default "None" (environ w !! "API_KEY");
      dashes 32 ].
Proof.
  intros Hn Ha En Ea Ek. unfold written.
  rewrite (my_task_returns name age w n a) by done.
  cbn [snd stdout]. by rewrite drop_app_length.
Qed.

(** Once the greeting is printed the first separator follows; what comes
    after depends on the environment line. *)
Lemma my_task_written_prefix name age w n a :
  str name = inr n → str age = inr a →
  encodable (stdout_encodes w) n = true →
  encodable (stdout_encodes w) a = true →
  ∃ rest,
    written (my_task name age) w =
      ("Hello " +:+ n +:+ " you are " +:+ a +:+ " years old")
        :: dashes 32 :: rest.
Proof.
  intros Hn Ha En Ea. rewrite my_task_written, Hn, Ha. cbv zeta.
  rewrite encodable_greeting, En, Ea. cbn [andb].
  destruct (encodable (stdout_encodes w) ("Key from Env: " +:+ _));
    eexists; reflexivity.
Qed.

(** ** The console as a character stream *)

(** Reading one complete line off the stream. *)
Lemma rows_from_line cur l rest :
  no_LF l →
  rows_from cur (l +:+ String LF rest) = (cur +:+ l) :: rows_from "" rest.
Proof.
  revert cur. induction l as [|c l IH]; intros cur Hl.
  - rewrite append_nil_l, append_empty_r. cbn [rows_from].
    by rewrite decide_True.
  - destruct Hl as [Hc Hl]. rewrite append_cons. cbn [rows_from].
    rewrite decide_False by done.
    rewrite IH by done. by rewrite append_snoc.
Qed.

Lemma rows_console_text_cons l ls :
  no_LF l → rows (console_text (l :: ls)) = l :: rows (console_text ls).
Proof.
  intros Hl. unfold rows. cbn [console_text foldr].
  by rewrite rows_from_line.
Qed.

(** When no written line holds a line feed, the rows of the stream are
    the written lines. *)
Lemma rows_console_text ls :
  Forall no_LF ls → rows (console_text ls) = ls.
Proof.
  induction 1 as [|l ls Hl _ IH]; [done |].
  by rewrite rows_console_text_cons, IH.
Qed.

(** A line feed inside a written line shows as a row break. *)
Example rows_embedded_LF :
  rows (console_text ["a" +:+ String LF "b"]) = ["a"; "b"].
Proof. reflexivity. Qed.

(** A line with [k] line feeds inside takes [k + 1] rows. *)
Lemma rows_from_line_length cur l rest :
  length (rows_from cur (l +:+ String LF rest)) =
    S (count_LF l + length (rows_from "" rest)).
Proof.
  revert cur. induction l as [|c l IH]; intros cur.
  - rewrite append_nil_l. cbn [rows_from count_LF].
    by rewrite decide_True.
  - rewrite append_cons. cbn [rows_from count_LF].
    destruct (decide (c = LF)) as [->|Hc].
    + cbn [length]. by rewrite IH.
    + by rewrite IH.
Qed.

Lemma rows_console_text_length ls :
  length (rows (console_text ls)) =
    (length ls + foldr (λ l n, count_LF l + n) 0 ls)%nat.
Proof.
  unfold rows. induction ls as [|l ls IH]; [done |].
  cbn [console_text foldr length]. rewrite rows_from_line_length.
  fold (console_text ls). rewrite IH. lia.
Qed.

Lemma no_LF_greeting n a :
  no_LF n → no_LF a →
  no_LF ("Hello " +:+ n +:+ " you are " +:+ a +:+ " years old").
Proof.
  intros Hn Ha.
  apply (no_LF_append "Hello "); [by repeat split |].
  apply no_LF_append; [done |].
  apply (no_LF_append " you are "); [by repeat split |].
  apply no_LF_append; [done | by repeat split].
Qed.

Lemma no_LF_env_line k : no_LF k → no_LF ("Key from Env: " +:+ k).
Proof. intros Hk. apply (no_LF_append "Key from Env: "); [by repeat split | done]. Qed.

(** Neither the greeting nor the environment line can be mistaken for a
    separator, whatever is interpolated into them. *)
Lemma greeting_not_dashes (s : string) n : "Hello " +:+ s ≠ dashes n.
Proof. destruct n; discriminate. Qed.

Lemma env_line_not_dashes (s : string) n : "Key from Env: " +:+ s ≠ dashes n.
Proof. destruct n; discriminate. Qed.

(** The four lines of a run that goes through, as the reader of the
    stream sees them, when nothing interpolated holds a line feed. *)
Lemma my_task_output_lines name age w n a :
  str name = inr n → str age = inr a →
  no_LF n → no_LF a → no_LF (default "None" (environ w !! "API_KEY")) →
  encodable (stdout_encodes w) n = true →
  encodable (stdout_encodes w) a = true →
  encodable (stdout_encodes w) (default "None" (environ w !! "API_KEY")) = true →
  output_lines (my_task name age) w =
    [ "Hello " +:+ n +:+ " you are " +:+ a +:+ " years old";
      dashes 32;
      "Key from Env: " +:+ default "None" (environ w !! "API_KEY");
      dashes 32 ].
Proof.
  intros Hn Ha Ln La Lk En Ea Ek. unfold output_lines.
  rewrite (my_task_written_returns name age w n a) by done.
  apply rows_console_text.
  repeat apply Forall_cons_2; try apply Forall_nil_2;
    auto using no_LF_dashes, no_LF_greeting, no_LF_env_line.
Qed.

(** The first line of standard output once the greeting is printed. *)
Lemma my_task_output_first name age w n a :
  str name = inr n → str age = inr a →
  no_LF n → no_LF a →
  encodable (stdout_encodes w) n = true →
  encodable (stdout_encodes w) a = true →
  output_lines (my_task name age) w !! 0%nat =
    Some ("Hello " +:+ n +:+ " you are " +:+ a +:+ " years old").
Proof.
  intros Hn Ha Ln La En Ea.
  destruct (my_task_written_prefix name age w n a) as [rest Hw]; [done.. |].
  unfold output_lines. rewrite Hw.
  by rewrite rows_console_text_cons by by apply no_LF_greeting.
Qed.

(** ** The greeting line *)

(** C1, as stated, fails: a name that holds a line feed ends the first
    line of standard output early. *)
Lemma my_task_first_line_counterexample :
  output_lines (my_task name_two_rows (VStr "1")) w_secret !! 0%nat =
    Some "Hello a"
  ∧ output_lines (my_task name_two_rows (VStr "1")) w_secret !! 0%nat ≠
      Some ("Hello " +:+ String "a" (String LF "b") +:+ " you are "
              +:+ "1" +:+ " years old").
Proof. vm_compute. split; [reflexivity | discriminate]. Qed.

(** C1, amended.  When formatting [name] and [age] succeeds with the
    texts [n] and [a], neither text holds a line feed and the console can
    encode both, the first line of standard output is
    ["Hello n you are a years old"]; and for an argument that is a text,
    the interpolated text is that very text. *)
Theorem my_task_first_line name age n a w :
  str name = inr n → str age = inr a →
  no_LF n → no_LF a →
  encodable (stdout_encodes w) n = true →
  encodable (stdout_encodes w) a = true →
  output_lines (my_task name age) w !! 0%nat =
    Some ("Hello " +:+ n +:+ " you are " +:+ a +:+ " years old")
  ∧ (∀ s, name = VStr s → n = s)
  ∧ (∀ s, age = VStr s → a = s).
Proof.
  intros Hn Ha Ln La En Ea. split_and!.
  - by apply my_task_output_first.
  - intros s ->. by injection Hn.
  - intros s ->. by injection Ha.
Qed.

Lemma my_task_first_line_witness :
  output_lines (my_task (VStr "Ada") (VStr "30")) w_secret !! 0%nat =
    Some "Hello Ada you are 30 years old".
Proof.
  apply (my_task_first_line (VStr "Ada") (VStr "30") "Ada" "30" w_secret);
    by vm_compute.
Defined.

(** ** The four lines *)

(** C2, as stated, fails: with a line feed in the name the run puts five
    lines on standard output. *)
Lemma my_task_four_lines_counterexample :
  output_lines (my_task name_two_rows (VStr "1")) w_secret =
    [ "Hello a"; "b you are 1 years old"; dashes 32;
      "Key from Env: secret123"; dashes 32 ]
  ∧ length (output_lines (my_task name_two_rows (VStr "1")) w_secret) ≠ 4%nat.
Proof. vm_compute. split; [reflexivity | discriminate]. Qed.

(** C2, amended.  When formatting [name] and [age] succeeds, no
    interpolated text (name, age, [API_KEY] value) holds a line feed and
    the console can encode them, the run adds exactly four lines to
    standard output, in this order: the greeting, a separator of dashes,
    the line starting with ["Key from Env: "], the same separator; what
    was on the console before stays, and nothing else is added. *)
Theorem my_task_four_lines name age n a w :
  str name = inr n → str age = inr a →
  no_LF n → no_LF a → no_LF (default "None" (environ w !! "API_KEY")) →
  encodable (stdout_encodes w) n = true →
  encodable (stdout_encodes w) a = true →
  encodable (stdout_encodes w) (default "None" (environ w !! "API_KEY")) = true →
  output_lines (my_task name age) w =
    [ "Hello " +:+ n +:+ " you are " +:+ a +:+ " years old";
      dashes 32;
      "Key from Env: " +:+ default "None" (environ w !! "API_KEY");
      dashes 32 ]
  ∧ length (output_lines (my_task name age) w) = 4%nat
  ∧ stdout (my_task name age w).2 =
      (stdout w ++ output_lines (my_task name age) w)%list.
Proof.
  intros Hn Ha Ln La Lk En Ea Ek.
  rewrite (my_task_output_lines name age w n a) by done.
  split_and!; [done | done |].
  by rewrite (my_task_returns name age w n a).
Qed.

Lemma my_task_four_lines_witness :
  output_lines (my_task (VStr "Ada") (VStr "30")) w_secret =
    [ "Hello Ada you are 30 years old";
      "--------------------------------";
      "Key from Env: secret123";
      "--------------------------------" ].
Proof.
  apply (my_task_four_lines (VStr "Ada") (VStr "30") "Ada" "30" w_secret);
    by vm_compute.
Defined.

(** ** The environment line *)

(** C3, as stated, fails: with a line feed in the name the third line of
    standard output is the separator, not the environment line. *)
Lemma my_task_env_line_set_counterexample :
  environ w_secret !! "API_KEY" = Some "secret123"
  ∧ output_lines (my_task name_two_rows (VStr "1")) w_secret !! 2%nat =
      Some (dashes 32)
  ∧ output_lines (my_task name_two_rows (VStr "1")) w_secret !! 2%nat ≠
      Some ("Key from Env: " +:+ "secret123").
Proof. vm_compute. split_and!; [reflexivity | reflexivity | discriminate]. Qed.

(** C3, amended.  When [API_KEY] is set to [V], formatting [name] and
    [age] succeeds, none of the three texts holds a line feed and the
    console can encode them, the third line of standard output is
    ["Key from Env: V"]. *)
Theorem my_task_env_line_set name age n a w V :
  environ w !! "API_KEY" = Some V →
  str name = inr n → str age = inr a →
  no_LF n → no_LF a → no_LF V →
  encodable (stdout_encodes w) n = true →
  encodable (stdout_encodes w) a = true →
  encodable (stdout_encodes w) V = true →
  output_lines (my_task name age) w !! 2%nat = Some ("Key from Env: " +:+ V).
Proof.
  intros HV Hn Ha Ln La LV En Ea EV.
  rewrite (my_task_output_lines name age w n a); rewrite ?HV; done.
Qed.

Lemma my_task_env_line_set_witness :
  environ w_secret !! "API_KEY" = Some "secret123"
  ∧ output_lines (my_task (VStr "Ada") (VStr "30")) w_secret !! 2%nat =
      Some ("Key from Env: " +:+ "secret123").
Proof.
  split; [reflexivity |].
  apply (my_task_env_line_set (VStr "Ada") (VStr "30") "Ada" "30" w_secret
           "secret123"); by vm_compute.
Defined.

(** C4, as stated, fails: with [API_KEY] not set, an [age] of 4301
    digits makes the first f-string raise [ValueError], and the run
    writes no line at all. *)
Lemma my_task_env_line_unset_counterexample :
  environ w_unset !! "API_KEY" = None
  ∧ (my_task (VStr "") (VInt int_4301_digits) w_unset).1 = Raised ValueError
  ∧ output_lines (my_task (VStr "") (VInt int_4301_digits)) w_unset = [].
Proof.
  split_and!; [reflexivity | |].
  - by rewrite my_task_run, str_text, str_int_4301_digits.
  - unfold output_lines.
    by rewrite my_task_written, str_text, str_int_4301_digits.
Qed.

(** C4, amended.  When [API_KEY] is not set, formatting [name] and [age]
    succeeds, neither text holds a line feed and the console can encode
    both, the third line of standard output is the placeholder line
    ["Key from Env: None"], and the call returns without raising. *)
Theorem my_task_env_line_unset name age n a w :
  environ w !! "API_KEY" = None →
  str name = inr n → str age = inr a →
  no_LF n → no_LF a →
  encodable (stdout_encodes w) n = true →
  encodable (stdout_encodes w) a = true →
  output_lines (my_task name age) w !! 2%nat = Some "Key from Env: None"
  ∧ (my_task name age w).1 = Returned VNone.
Proof.
  intros HV Hn Ha Ln La En Ea. split.
  - rewrite (my_task_output_lines name age w n a); rewrite ?HV; done.
  - rewrite (my_task_returns name age w n a); rewrite ?HV; done.
Qed.

Lemma my_task_env_line_unset_witness :
  environ w_unset !! "API_KEY" = None
  ∧ output_lines (my_task (VStr "") (VInt 0)) w_unset !! 2%nat =
      Some "Key from Env: None"
  ∧ (my_task (VStr "") (VInt 0) w_unset).1 = Returned VNone.
Proof.
  split; [reflexivity |].
  apply (my_task_env_line_unset (VStr "") (VInt 0) "" "0" w_unset);
    by vm_compute.
Defined.

(** ** The separator *)

(** C5, as stated, fails: with a line feed in the name the second line
    of standard output is the rest of the greeting, not the separator. *)
Lemma my_task_separator_twice_counterexample :
  output_lines (my_task name_two_rows (VStr "1")) w_secret !! 1%nat =
    Some "b you are 1 years old"
  ∧ output_lines (my_task name_two_rows (VStr "1")) w_secret !! 1%nat ≠
      Some (dashes 32).
Proof. vm_compute. split; [reflexivity | discriminate]. Qed.

(** C5, amended.  There is one fixed run of dashes such that, whenever
    formatting [name] and [age] succeeds, no interpolated text holds a
    line feed and the console can encode them, it is the second and the
    fourth line of standard output and no other line, so it is emitted
    exactly twice, and the environment line is the line between the
    two. *)
Theorem my_task_separator_twice :
  ∃ sep : string,
    (∃ m, sep = dashes (S m)) ∧
    ∀ name age n a w,
      str name = inr n → str age = inr a →
      no_LF n → no_LF a → no_LF (default "None" (environ w !! "API_KEY")) →
      encodable (stdout_encodes w) n = true →
      encodable (stdout_encodes w) a = true →
      encodable (stdout_encodes w)
        (default "None" (environ w !! "API_KEY")) = true →
      let ls := output_lines (my_task name age) w in
      (∀ i : nat, ls !! i = Some sep ↔ i = 1%nat ∨ i = 3%nat)
      ∧ length (filter (λ l, l = sep) ls) = 2%nat
      ∧ ls !! 2%nat =
          Some ("Key from Env: " +:+ default "None" (environ w !! "API_KEY")).
Proof.
  exists (dashes 32). split; [by exists 31%nat |].
  intros name age n a w Hn Ha Ln La Lk En Ea Ek ls. subst ls.
  rewrite (my_task_output_lines name age w n a) by done.
  pose proof (greeting_not_dashes
                (n +:+ " you are " +:+ a +:+ " years old") 32) as Hg.
  pose proof (env_line_not_dashes
                (default "None" (environ w !! "API_KEY")) 32) as He.
  split_and!.
  - intros i. destruct i as [|[|[|[|i]]]]; cbn [lookup list_lookup]; split;
      intros H; try done; try (by left); try (by right);
      try (destruct H as [H|H]; discriminate H); try (by injection H).
  - rewrite filter_cons_False by done. rewrite filter_cons_True by done.
    rewrite filter_cons_False by done. rewrite filter_cons_True by done.
    done.
  - done.
Qed.

Lemma my_task_separator_twice_witness :
  ∃ sep : string,
    output_lines (my_task (VStr "Ada") (VStr "30")) w_secret !! 1%nat = Some sep
    ∧ output_lines (my_task (VStr "Ada") (VStr "30")) w_secret !! 3%nat = Some sep
    ∧ length (filter (λ l, l = sep)
                (output_lines (my_task (VStr "Ada") (VStr "30")) w_secret)) = 2%nat.
Proof.
  destruct my_task_separator_twice as (sep & _ & H).
  exists sep.
  destruct (H (VStr "Ada") (VStr "30") "Ada" "30" w_secret) as (Hi & Hc & _);
    [by vm_compute.. |].
  split_and!; [apply Hi; by left | apply Hi; by right | exact Hc].
Defined.

(** C9. Whenever the run gets to print a second or a fourth line, that
    line is the run of exactly 32 dash characters, whatever the
    arguments and the environment; a run that returns has printed
    both. *)
Theorem my_task_separator_32 name age w :
  (∀ l, written (my_task name age) w !! 1%nat = Some l → l = dashes 32)
  ∧ (∀ l, written (my_task name age) w !! 3%nat = Some l → l = dashes 32)
  ∧ ((my_task name age w).1 = Returned VNone →
     written (my_task name age) w !! 1%nat = Some (dashes 32)
     ∧ written (my_task name age) w !! 3%nat = Some (dashes 32))
  ∧ String.length (dashes 32) = 32%nat
  ∧ dashes 32 = "--------------------------------".
Proof.
  split_and!; try done.
  - rewrite my_task_written. intros l.
    destruct (str name); [done |]. destruct (str age); [done |]. cbv zeta.
    repeat (destruct (encodable _ _)); cbn [lookup list_lookup]; intros H;
      by simplify_eq.
  - rewrite my_task_written. intros l.
    destruct (str name); [done |]. destruct (str age); [done |]. cbv zeta.
    repeat (destruct (encodable _ _)); cbn [lookup list_lookup]; intros H;
      by simplify_eq.
  - intros H. apply my_task_returned_inv in H as (n & a & Hn & Ha & En & Ea & Ek).
    by rewrite (my_task_written_returns name age w n a).
Qed.

Lemma my_task_separator_32_witness :
  (my_task (VStr "Ada") (VStr "30") w_secret).1 = Returned VNone
  ∧ written (my_task (VStr "Ada") (VStr "30")) w_secret !! 1%nat =
      Some (dashes 32)
  ∧ written (my_task (VStr "Ada") (VStr "30")) w_secret !! 3%nat =
      Some (dashes 32).
Proof.
  split; [by vm_compute |].
  apply (my_task_separator_32 (VStr "Ada") (VStr "30") w_secret).
  by vm_compute.
Defined.

(** ** A concrete run *)

(** C6. With [name = "Ada"], [age = 30] and [API_KEY] set to
    ["secret123"], the output is exactly the four lines of the scenario;
    as a character stream, each is ended by a line feed. *)
Theorem my_task_ada w :
  environ w !! "API_KEY" = Some "secret123" →
  written (my_task (VStr "Ada") (VInt 30)) w =
    [ "Hello Ada you are 30 years old";
      "--------------------------------";
      "Key from Env: secret123";
      "--------------------------------" ]
  ∧ console_text (written (my_task (VStr "Ada") (VInt 30)) w) =
"Hello Ada you are 30 years old
--------------------------------
Key from Env: secret123
--------------------------------
".
Proof.
  intros HV.
  assert (str (VInt 30) = inr "30") as H30 by (vm_compute; reflexivity).
  rewrite (my_task_written_returns (VStr "Ada") (VInt 30) w "Ada" "30"
             eq_refl H30 eq_refl eq_refl); rewrite HV.
  - split; reflexivity.
  - reflexivity.
Qed.

Lemma my_task_ada_witness :
  environ w_secret !! "API_KEY" = Some "secret123"
  ∧ written (my_task (VStr "Ada") (VInt 30)) w_secret =
      [ "Hello Ada you are 30 years old";
        "--------------------------------";
        "Key from Env: secret123";
        "--------------------------------" ].
Proof.
  split; [reflexivity |].
  apply (my_task_ada w_secret). reflexivity.
Defined.

(** ** Totality and frame *)




(** C8. The effects of a call are lines added to the console and at
    most one lookup, of [API_KEY]: the environment, the other globals
    and the console codec are as before, the earlier console content is
    kept, and the log of environment reads is unchanged or grows by the
    single key ["API_KEY"]; it grows by exactly that key in every run
    that returns. *)
Theorem my_task_frame name age w :
  let w' := (my_task name age w).2 in
  environ w' = environ w
  ∧ globals w' = globals w
  ∧ stdout_encodes w' = stdout_encodes w
  ∧ stdout w' = (stdout w ++ written (my_task name age) w)%list
  ∧ (env_reads w' = env_reads w
     ∨ env_reads w' = (env_reads w ++ ["API_KEY"])%list)
  ∧ ((my_task name age w).1 = Returned VNone →
     env_reads w' = (env_reads w ++ ["API_KEY"])%list).
Proof.
  intros w'. subst w'. rewrite my_task_written, my_task_run.
  destruct (str name); [by rewrite app_nil_r; split_and!; auto |].
  destruct (str age); [by rewrite app_nil_r; split_and!; auto |].
  cbv zeta.
  destruct (encodable _ _); [| by rewrite app_nil_r; split_and!; auto].
  destruct (encodable _ _); cbn [fst snd environ globals stdout env_reads
                                  stdout_encodes]; split_and!; auto.
Qed.

Lemma my_task_frame_witness :
  (my_task (VStr "Ada") (VStr "30") w_other).1 = Returned VNone
  ∧ env_reads (my_task (VStr "Ada") (VStr "30") w_other).2 =
      (env_reads w_other ++ ["API_KEY"])%list.
Proof.
  split; [by vm_compute |].
  apply (my_task_frame (VStr "Ada") (VStr "30") w_other). by vm_compute.
Defined.

(** ** Determinism and independence from the environment *)

Lemma encodable_ext enc1 enc2 s :
  (∀ c, enc1 c = enc2 c) → encodable enc1 s = encodable enc2 s.
Proof.
  intros H. induction s as [|c s IH]; [done |].
  cbn [encodable]. by rewrite H, IH.
Qed.

(** The run depends on the state through the [API_KEY] entry and the
    console codec only. *)
Lemma my_task_depends name age w1 w2 :
  environ w1 !! "API_KEY" = environ w2 !! "API_KEY" →
  (∀ c, stdout_encodes w1 c = stdout_encodes w2 c) →
  written (my_task name age) w1 = written (my_task name age) w2
  ∧ (my_task name age w1).1 = (my_task name age w2).1.
Proof.
  intros Hk Hc. rewrite !my_task_written, !my_task_run, Hk.
  destruct (str name) as [|n]; [done |].
  destruct (str age) as [|a]; [done |]. cbv zeta.
  rewrite (encodable_ext _ _ ("Hello " +:+ _) Hc).
  rewrite (encodable_ext _ _ ("Key from Env: " +:+ _) Hc).
  destruct (encodable (stdout_encodes w2) ("Hello " +:+ _)); [| done].
  by destruct (encodable (stdout_encodes w2) ("Key from Env: " +:+ _)).
Qed.

(** C10, as stated, fails twice.  The fourth line of standard output
    depends on [API_KEY]: with values that hold a line feed and differ
    after it, the fourth lines differ.  And equal arguments and equal
    [API_KEY] do not give equal outputs when one console cannot encode
    the name. *)
Lemma my_task_deterministic_counterexample :
  (output_lines (my_task (VStr "Ada") (VStr "30")) w_key_ab !! 3%nat = Some "b"
   ∧ output_lines (my_task (VStr "Ada") (VStr "30")) w_key_ac !! 3%nat = Some "c"
   ∧ output_lines (my_task (VStr "Ada") (VStr "30")) w_key_ab !! 3%nat ≠
       output_lines (my_task (VStr "Ada") (VStr "30")) w_key_ac !! 3%nat)
  ∧ (environ w_secret !! "API_KEY" = environ w_secret_ascii !! "API_KEY"
     ∧ output_lines (my_task name_not_ascii (VStr "30")) w_secret ≠
         output_lines (my_task name_not_ascii (VStr "30")) w_secret_ascii).
Proof.
  vm_compute.
  split_and!; try reflexivity; discriminate.
Qed.

(** C10, amended.  Two runs with the same [name] and [age] whose
    environments agree on [API_KEY] and whose consoles have the same
    codec write the same lines and end with the same result, whatever
    else differs between the two states.  And when formatting [name] and
    [age] succeeds, no interpolated text of either run holds a line feed
    and each console can encode what its run prints, the first, second
    and fourth lines of standard output agree even when [API_KEY]
    differs. *)
Theorem my_task_deterministic name age w1 w2 :
  (environ w1 !! "API_KEY" = environ w2 !! "API_KEY" →
   (∀ c, stdout_encodes w1 c = stdout_encodes w2 c) →
   output_lines (my_task name age) w1 = output_lines (my_task name age) w2
   ∧ written (my_task name age) w1 = written (my_task name age) w2
   ∧ (my_task name age w1).1 = (my_task name age w2).1)
  ∧ (∀ n a,
       str name = inr n → str age = inr a → no_LF n → no_LF a →
       no_LF (default "None" (environ w1 !! "API_KEY")) →
       no_LF (default "None" (environ w2 !! "API_KEY")) →
       encodable (stdout_encodes w1) n = true →
       encodable (stdout_encodes w1) a = true →
       encodable (stdout_encodes w1)
         (default "None" (environ w1 !! "API_KEY")) = true →
       encodable (stdout_encodes w2) n = true →
       encodable (stdout_encodes w2) a = true →
       encodable (stdout_encodes w2)
         (default "None" (environ w2 !! "API_KEY")) = true →
       output_lines (my_task name age) w1 !! 0%nat =
         output_lines (my_task name age) w2 !! 0%nat
       ∧ output_lines (my_task name age) w1 !! 1%nat =
           output_lines (my_task name age) w2 !! 1%nat
       ∧ output_lines (my_task name age) w1 !! 3%nat =
           output_lines (my_task name age) w2 !! 3%nat).
Proof.
  split.
  - intros Hk Hc. destruct (my_task_depends name age w1 w2 Hk Hc) as [Hw Hr].
    unfold output_lines. by rewrite Hw.
  - intros n a Hn Ha Ln La L1 L2 En1 Ea1 Ek1 En2 Ea2 Ek2.
    rewrite (my_task_output_lines name age w1 n a) by done.
    by rewrite (my_task_output_lines name age w2 n a).
Qed.

Lemma my_task_deterministic_witness :
  environ w_secret !! "API_KEY" = environ w_other !! "API_KEY"
  ∧ output_lines (my_task (VStr "Ada") (VStr "30")) w_secret =
      output_lines (my_task (VStr "Ada") (VStr "30")) w_other
  ∧ output_lines (my_task (VStr "Ada") (VStr "30")) w_secret !! 3%nat =
      output_lines (my_task (VStr "Ada") (VStr "30")) w_none_text !! 3%nat.
Proof.
  split; [reflexivity |].
  destruct (my_task_deterministic (VStr "Ada") (VStr "30") w_secret w_other)
    as [H1 _].
  destruct (my_task_deterministic (VStr "Ada") (VStr "30") w_secret w_none_text)
    as [_ H2].
  split.
  - apply H1; [reflexivity | by intros c].
  - apply (H2 "Ada" "30"); by vm_compute.
Defined.

(** * Further properties of the run *)

(** ** Rows on the console *)

(** X1. For line-feed-free arguments and environment value, a reader of
    the console sees the written lines as rows, one row per line. *)
Lemma my_task_rows name age w n a :
  str name = inr n → str age = inr a →
  no_LF n → no_LF a →
  no_LF (default "None" (environ w !! "API_KEY")) →
  rows (console_text (written (my_task name age) w)) =
    written (my_task name age) w.
Proof.
  intros Hn Ha Ln La Lk. apply rows_console_text.
  rewrite my_task_written, Hn, Ha. cbv zeta.
  destruct (encodable _ _); [| done].
  destruct (encodable _ _);
    repeat apply Forall_cons_2; try apply Forall_nil_2;
    auto using no_LF_dashes, no_LF_greeting, no_LF_env_line.
Qed.

Lemma my_task_rows_witness :
  rows (console_text (written (my_task (VStr "Ada") (VInt 30)) w_secret)) =
    written (my_task (VStr "Ada") (VInt 30)) w_secret.
Proof.
  apply (my_task_rows (VStr "Ada") (VInt 30) w_secret "Ada" "30");
    by vm_compute.
Defined.

(** X2. Nothing written is escaped: in a run that returns, every line
    feed held by the text of [name], of [age] or of the [API_KEY] value
    adds one row to the four that the run always takes on the
    console. *)
Theorem my_task_row_count name age w n a :
  str name = inr n → str age = inr a →
  (my_task name age w).1 = Returned VNone →
  length (rows (console_text (written (my_task name age) w))) =
    (4 + count_LF n + count_LF a
       + count_LF (default "None" (environ w !! "API_KEY")))%nat.
Proof.
  intros Hn Ha Hr.
  apply my_task_returned_inv in Hr as (n' & a' & Hn' & Ha' & En & Ea & Ek).
  assert (n' = n) as -> by congruence. assert (a' = a) as -> by congruence.
  rewrite rows_console_text_length.
  rewrite (my_task_written_returns name age w n a) by done.
  cbn [length foldr]. rewrite !count_LF_append, !count_LF_dashes.
  change (count_LF "Hello ") with 0%nat.
  change (count_LF " you are ") with 0%nat.
  change (count_LF " years old") with 0%nat.
  change (count_LF "Key from Env: ") with 0%nat.
  lia.
Qed.

Lemma my_task_row_count_witness :
  length (rows (console_text
                  (written (my_task name_two_rows (VStr "1")) w_key_ab))) =
    6%nat.
Proof.
  apply (my_task_row_count name_two_rows (VStr "1") w_key_ab
           (String "a" (String LF "b")) "1"); by vm_compute.
Defined.

(** ** Arguments that are not text *)

Lemma no_LF_string_of_uint d : no_LF (NilEmpty.string_of_uint d).
Proof. induction d; simpl; try done; by split. Qed.

Lemma no_LF_string_of_int d : no_LF (NilZero.string_of_int d).
Proof.
  destruct d as [d|d]; simpl.
  - destruct d; try apply (no_LF_string_of_uint (_ _)); by repeat split.
  - split; [done |].
    destruct d; try apply (no_LF_string_of_uint (_ _)); by repeat split.
Qed.

Lemma encodable_string_of_uint enc d :
  encodable enc (NilEmpty.string_of_uint d) = true.
Proof. induction d; simpl; try done. Qed.

Lemma encodable_string_of_int enc d :
  encodable enc (NilZero.string_of_int d) = true.
Proof.
  destruct d as [d|d]; simpl;
    destruct d; try apply (encodable_string_of_uint _ (_ _)); done.
Qed.

(** The text of [None], of a boolean and of an integer within the digit
    limit: it exists, holds no line feed and stays in the ASCII range. *)
Lemma str_scalar v :
  is_scalar v = true →
  ∃ t, str v = inr t ∧ no_LF t ∧ ∀ enc, encodable enc t = true.
Proof.
  destruct v as [|[]|z|r|s|o]; try done; intros Hv.
  - exists "None". by repeat split.
  - exists "True". by repeat split.
  - exists "False". by repeat split.
  - apply negb_true_iff in Hv. rewrite (str_int z Hv). eexists. split; [done |].
    split; [apply no_LF_string_of_int | intros; apply encodable_string_of_int].
Qed.

(** X3. Only text can break the layout: when [name] and [age] are
    [None], booleans or integers within the digit limit and [API_KEY] is
    not set, the call returns and the console shows exactly four rows:
    the greeting, the separator, the placeholder line and the
    separator. *)
Theorem my_task_rows_scalar name age w :
  is_scalar name = true → is_scalar age = true →
  environ w !! "API_KEY" = None →
  ∃ n a,
    str name = inr n ∧ str age = inr a
    ∧ (my_task name age w).1 = Returned VNone
    ∧ rows (console_text (written (my_task name age) w)) =
        [ "Hello " +:+ n +:+ " you are " +:+ a +:+ " years old";
          dashes 32;
          "Key from Env: None";
          dashes 32 ].
Proof.
  intros Hn Ha Hk.
  destruct (str_scalar name Hn) as (n & Sn & Ln & En).
  destruct (str_scalar age Ha) as (a & Sa & La & Ea).
  exists n, a. split_and!; try done.
  - rewrite (my_task_returns name age w n a); rewrite ?Hk; done.
  - pose proof (my_task_output_lines name age w n a) as H.
    unfold output_lines in H. rewrite H; rewrite ?Hk; done.
Qed.

Lemma my_task_rows_scalar_witness :
  ∃ n a,
    str (VNone) = inr n ∧ str (VBool true) = inr a
    ∧ (my_task VNone (VBool true) w_unset).1 = Returned VNone
    ∧ rows (console_text (written (my_task VNone (VBool true)) w_unset)) =
        [ "Hello " +:+ n +:+ " you are " +:+ a +:+ " years old";
          dashes 32;
          "Key from Env: None";
          dashes 32 ].
Proof.
  apply (my_task_rows_scalar VNone (VBool true) w_unset); reflexivity.
Defined.

(** ** What the output tells about [API_KEY] *)

(** X4. The value of [API_KEY] is shown in the clear: two runs on the
    same arguments that both return, both with [API_KEY] set, write the
    same lines exactly when the two values are equal. *)
Theorem my_task_discloses_key name age w1 w2 V1 V2 :
  environ w1 !! "API_KEY" = Some V1 →
  environ w2 !! "API_KEY" = Some V2 →
  (my_task name age w1).1 = Returned VNone →
  (my_task name age w2).1 = Returned VNone →
  written (my_task name age) w1 = written (my_task name age) w2 ↔ V1 = V2.
Proof.
  intros H1 H2 R1 R2.
  apply my_task_returned_inv in R1 as (n & a & Hn & Ha & En1 & Ea1 & Ek1).
  apply my_task_returned_inv in R2 as (n' & a' & Hn' & Ha' & En2 & Ea2 & Ek2).
  assert (n' = n) as -> by congruence. assert (a' = a) as -> by congruence.
  rewrite (my_task_written_returns name age w1 n a) by done.
  rewrite (my_task_written_returns name age w2 n a) by done.
  rewrite H1, H2. cbn [default].
  split.
  - intros H. apply (f_equal (λ l, l !! 2%nat)) in H. cbn in H.
    apply (inj Some) in H. by apply (inj (String.app _)) in H.
  - by intros ->.
Qed.

Lemma my_task_discloses_key_witness :
  environ w_secret !! "API_KEY" = Some "secret123"
  ∧ environ w_none_text !! "API_KEY" = Some "None"
  ∧ written (my_task (VStr "Ada") (VStr "30")) w_secret ≠
      written (my_task (VStr "Ada") (VStr "30")) w_none_text.
Proof.
  split; [reflexivity |]. split; [reflexivity |].
  intros H.
  apply (my_task_discloses_key (VStr "Ada") (VStr "30") w_secret w_none_text
           "secret123" "None") in H;
    [discriminate H | reflexivity | reflexivity | by vm_compute | by vm_compute].
Defined.

(** X5. A reader of the output cannot tell a missing [API_KEY] from one
    set to the text ["None"]: behind the same console codec both runs
    write the same lines. *)
Theorem my_task_unset_like_None name age w1 w2 :
  environ w1 !! "API_KEY" = None →
  environ w2 !! "API_KEY" = Some "None" →
  (∀ c, stdout_encodes w1 c = stdout_encodes w2 c) →
  written (my_task name age) w1 = written (my_task name age) w2.
Proof.
  intros H1 H2 Hc. rewrite !my_task_written, H1, H2. cbn [default].
  destruct (str name) as [|n]; [done |].
  destruct (str age) as [|a]; [done |]. cbv zeta.
  by rewrite !(encodable_ext _ _ _ Hc).
Qed.

Lemma my_task_unset_like_None_witness :
  environ w_unset !! "API_KEY" = None
  ∧ environ w_none_text !! "API_KEY" = Some "None"
  ∧ written (my_task (VStr "Ada") (VStr "30")) w_unset =
      written (my_task (VStr "Ada") (VStr "30")) w_none_text.
Proof.
  split; [reflexivity |]. split; [reflexivity |].
  apply (my_task_unset_like_None (VStr "Ada") (VStr "30") w_unset w_none_text);
    [reflexivity | reflexivity | by intros c].
Defined.

(** ** Calling the task twice *)

(** X6. When each of two calls returns on its own, the two calls in a
    row write the four lines of the first followed by the four lines the
    second would write on its own from the same state, look [API_KEY] up
    twice, leave the environment as it was and return [None]: no call
    changes what a later call prints. *)
Theorem my_task_twice name1 age1 name2 age2 w :
  (my_task name1 age1 w).1 = Returned VNone →
  (my_task name2 age2 w).1 = Returned VNone →
  let both : IO value := my_task name1 age1 ;; my_task name2 age2 in
  written both w =
    (written (my_task name1 age1) w ++ written (my_task name2 age2) w)%list
  ∧ (both w).1 = Returned VNone
  ∧ environ (both w).2 = environ w
  ∧ env_reads (both w).2 = (env_reads w ++ ["API_KEY"; "API_KEY"])%list.
Proof.
  intros R1 R2 both.
  apply my_task_returned_inv in R1 as (n1 & a1 & Hn1 & Ha1 & En1 & Ea1 & Ek1).
  apply my_task_returned_inv in R2 as (n2 & a2 & Hn2 & Ha2 & En2 & Ea2 & Ek2).
  pose proof (my_task_returns name1 age1 w n1 a1 Hn1 Ha1 En1 Ea1 Ek1) as E1.
  assert (both w = my_task name2 age2 (my_task name1 age1 w).2) as Hboth.
  { unfold both, mbind, IO_bind, bind. by rewrite E1. }
  unfold written. rewrite Hboth, E1. cbn [snd].
  rewrite (my_task_returns name2 age2 _ n2 a2) by done.
  rewrite (my_task_returns name2 age2 w n2 a2) by done.
  cbn [snd fst environ stdout globals env_reads].
  split_and!; try done.
  - rewrite <- (assoc_L (++)), !drop_app_length. done.
  - by rewrite <- (assoc_L (++)).
Qed.

Lemma my_task_twice_witness :
  written (my_task (VStr "Ada") (VStr "30") ;; my_task (VStr "Bob") (VStr "31")
             : IO value) w_secret =
    (written (my_task (VStr "Ada") (VStr "30")) w_secret
       ++ written (my_task (VStr "Bob") (VStr "31")) w_secret)%list.
Proof.
  apply (my_task_twice (VStr "Ada") (VStr "30") (VStr "Bob") (VStr "31")
           w_secret); by vm_compute.
Defined.

(** ** What the greeting tells about its arguments *)

Lemma greeting_inj_age (n a1 a2 : string) :
  "Hello " +:+ n +:+ " you are " +:+ a1 +:+ " years old" =
  "Hello " +:+ n +:+ " you are " +:+ a2 +:+ " years old" → a1 = a2.
Proof.
  intros H. do 3 apply (inj (String.app _)) in H.
  by apply append_inj_r in H.
Qed.

Lemma greeting_inj_name (n1 n2 a : string) :
  "Hello " +:+ n1 +:+ " you are " +:+ a +:+ " years old" =
  "Hello " +:+ n2 +:+ " you are " +:+ a +:+ " years old" → n1 = n2.
Proof.
  intros H. apply (inj (String.app _)) in H.
  by apply append_inj_r in H.
Qed.

(** X7. The greeting has no quoting: words of the template inside an
    argument are taken for the template.  Moving [" you are "] from the
    end of the name to the start of the age gives the same output. *)
Theorem my_task_greeting_ambiguous (a b c : string) w :
  written (my_task (VStr (a +:+ " you are " +:+ b)) (VStr c)) w =
  written (my_task (VStr a) (VStr (b +:+ " you are " +:+ c))) w.
Proof.
  rewrite !my_task_written, !str_text. cbv zeta.
  by rewrite !append_assoc.
Qed.

(** The first written line, when there is one, is the greeting. *)
Lemma my_task_written_first name age w n a l :
  str name = inr n → str age = inr a →
  written (my_task name age) w !! 0%nat = Some l →
  l = "Hello " +:+ n +:+ " you are " +:+ a +:+ " years old".
Proof.
  intros Hn Ha. rewrite my_task_written, Hn, Ha. cbv zeta.
  destruct (encodable _ _); [| done].
  destruct (encodable _ _); cbn [lookup list_lookup]; by intros [= <-].
Qed.

(** X8. With the text of one argument known, the first line determines
    the text of the other: if two runs write the same first line, equal
    name texts imply equal age texts, and equal age texts imply equal
    name texts. *)
Theorem my_task_greeting_determines name1 age1 name2 age2 w1 w2 n1 a1 n2 a2 l :
  str name1 = inr n1 → str age1 = inr a1 →
  str name2 = inr n2 → str age2 = inr a2 →
  written (my_task name1 age1) w1 !! 0%nat = Some l →
  written (my_task name2 age2) w2 !! 0%nat = Some l →
  (n1 = n2 → a1 = a2) ∧ (a1 = a2 → n1 = n2).
Proof.
  intros Hn1 Ha1 Hn2 Ha2 H1 H2.
  apply (my_task_written_first _ _ _ n1 a1) in H1; [| done..].
  apply (my_task_written_first _ _ _ n2 a2) in H2; [| done..].
  rewrite H1 in H2. split.
  - intros ->. by apply greeting_inj_age in H2.
  - intros ->. by apply greeting_inj_name in H2.
Qed.

Lemma my_task_greeting_determines_witness :
  written (my_task (VStr "7") (VInt 30)) w_secret !! 0%nat =
    Some "Hello 7 you are 30 years old"
  ∧ written (my_task (VInt 7) (VStr "30")) w_other !! 0%nat =
      Some "Hello 7 you are 30 years old"
  ∧ (("7" : string) = "7" → ("30" : string) = "30").
Proof.
  split; [by vm_compute |]. split; [by vm_compute |].
  apply (my_task_greeting_determines (VStr "7") (VInt 30) (VInt 7) (VStr "30")
           w_secret w_other "7" "30" "7" "30" "Hello 7 you are 30 years old");
    by vm_compute.
Defined.

(** [str] is one-to-one on the integers within the digit limit. *)
Lemma str_int_inj (x y : Z) (s : string) :
  str (VInt x) = inr s → str (VInt y) = inr s → x = y.
Proof.
  unfold str.
  destruct (exceeds_max_str_digits x); [done |].
  destruct (exceeds_max_str_digits y); [done |].
  intros [= Hx] [= Hy]. rewrite <- Hy in Hx.
  assert (∀ z, Z.to_int z ≠ Decimal.Pos Decimal.Nil
               ∧ Z.to_int z ≠ Decimal.Neg Decimal.Nil) as Hnz.
  { intros [|p|p]; split; try discriminate; intros [= Hp];
      by apply DecimalPos.Unsigned.to_uint_nonnil in Hp. }
  apply (f_equal NilZero.int_of_string) in Hx.
  rewrite !NilZero.isi in Hx by apply Hnz.
  injection Hx as Hx. by apply DecimalZ.to_int_inj.
Qed.

(** X9. For the same name, whose text holds no line feed and can be
    encoded by both consoles, and two integer ages within the digit
    limit, the first lines of standard output of two runs are equal
    exactly when the ages are equal. *)
Theorem my_task_greeting_age_int name n (x y : Z) w1 w2 :
  str name = inr n → no_LF n →
  encodable (stdout_encodes w1) n = true →
  encodable (stdout_encodes w2) n = true →
  exceeds_max_str_digits x = false →
  exceeds_max_str_digits y = false →
  output_lines (my_task name (VInt x)) w1 !! 0%nat =
    output_lines (my_task name (VInt y)) w2 !! 0%nat ↔ x = y.
Proof.
  intros Hn Ln En1 En2 Hx Hy.
  destruct (str_scalar (VInt x)) as (tx & Sx & Lx & Ex);
    [by apply negb_true_iff |].
  destruct (str_scalar (VInt y)) as (ty & Sy & Ly & Ey);
    [by apply negb_true_iff |].
  rewrite (my_task_output_first name (VInt x) w1 n tx Hn Sx Ln Lx En1 (Ex _)).
  rewrite (my_task_output_first name (VInt y) w2 n ty Hn Sy Ln Ly En2 (Ey _)).
  split.
  - intros H%(inj Some). apply greeting_inj_age in H. subst ty.
    by apply (str_int_inj x y tx).
  - intros ->. by assert (tx = ty) as -> by congruence.
Qed.

Lemma my_task_greeting_age_int_witness :
  output_lines (my_task (VStr "Ada") (VInt 30)) w_secret !! 0%nat ≠
    output_lines (my_task (VStr "Ada") (VInt 31)) w_other !! 0%nat.
Proof.
  assert (output_lines (my_task (VStr "Ada") (VInt 30)) w_secret !! 0%nat =
            output_lines (my_task (VStr "Ada") (VInt 31)) w_other !! 0%nat
          ↔ 30%Z = 31%Z) as [Hf _].
  { apply (my_task_greeting_age_int (VStr "Ada") "Ada" 30 31 w_secret w_other);
      by vm_compute. }
  intros H. discriminate (Hf H).
Defined.
